(** * importlib_resources: [open] over a model of the host import system

    A shallow embedding of [src/importlib_resources/__init__.py]:
    [_get_package], [_normalize_path] and [open], together with the parts of
    the Python runtime they call ([str] methods, [posixpath], [os.fspath],
    [importlib.import_module], [io.BytesIO]).

    Paths are POSIX paths ([os.path] is [posixpath]); a path argument is a
    [str] or a path-like object whose [__fspath__] returns a [str], as
    [pathlib]'s do. *)

From Stdlib Require Import Strings.Ascii Strings.String Strings.Byte ZArith.
From stdpp Require Import base option list strings gmap.

Local Open Scope string_scope.

(** ** Python [str] methods used by the source and by [posixpath] *)

Module Str.

(** [s.startswith(p)] *)
Definition startswith (s p : string) : bool := String.prefix p s.

(** [s.endswith(p)] *)
Definition endswith (s p : string) : bool :=
  String.prefix (String.rev p) (String.rev s).

(** [s.split(sep)] for a one-character separator: never the empty list. *)
Fixpoint split (sep : ascii) (s : string) : list string :=
  match s with
  | EmptyString => [EmptyString]
  | String c s' =>
      if Ascii.eqb c sep then EmptyString :: split sep s'
      else match split sep s' with
           | h :: t => String c h :: t
           | [] => [String c EmptyString]
           end
  end.

(** [sep.join(l)] *)
Definition join (sep : string) (l : list string) : string :=
  String.concat sep l.

(** [s * n] *)
Fixpoint mul (s : string) (n : nat) : string :=
  match n with
  | O => EmptyString
  | S n' => s ++ mul s n'
  end.

(** [s.rfind(c)] for a one-character needle: the highest index, or -1. *)
Fixpoint rfind_from (c : ascii) (s : string) (i : Z) (found : Z) : Z :=
  match s with
  | EmptyString => found
  | String a s' =>
      rfind_from c s' (i + 1) (if Ascii.eqb a c then i else found)
  end.

Definition rfind (s : string) (c : ascii) : Z := rfind_from c s 0 (-1).

(** [s[:i]] for [0 <= i] *)
Definition slice_to (s : string) (i : Z) : string :=
  String.substring 0 (Z.to_nat i) s.

(** [s.rstrip(c)] for a one-character set *)
Fixpoint rstrip (s : string) (c : ascii) : string :=
  match s with
  | EmptyString => EmptyString
  | String a s' =>
      match rstrip s' c with
      | EmptyString => if Ascii.eqb a c then EmptyString
                       else String a EmptyString
      | r => String a r
      end
  end.

End Str.

(** ** [posixpath] *)

Module posixpath.

Definition sep : ascii := "/"%char.
Definition sep_s : string := "/".
Definition dot : string := ".".
Definition dotdot : string := "..".

(** [isabs(s)]: [s.startswith(sep)] *)
Definition isabs (s : string) : bool := Str.startswith s sep_s.

(** [join(a, b)] with one component [b]. *)
Definition join (a b : string) : string :=
  if Str.startswith b sep_s then b
  else if String.eqb a "" || Str.endswith a sep_s then a ++ b
  else a ++ sep_s ++ b.

(** [dirname(p)] *)
Definition dirname (p : string) : string :=
  let i := (Str.rfind p sep + 1)%Z in
  let head := Str.slice_to p i in
  if negb (String.eqb head "")
     && negb (String.eqb head (Str.mul sep_s (String.length head)))
  then Str.rstrip head sep
  else head.

(** The three values [initial_slashes] takes in [normpath]: POSIX allows
    one or two initial slashes, three or more count as one. *)
Definition initial_slashes (path : string) : nat :=
  if Str.startswith path sep_s then
    if Str.startswith path (Str.mul sep_s 2)
       && negb (Str.startswith path (Str.mul sep_s 3))
    then 2 else 1
  else 0.

(** One turn of the [for comp in comps] loop of [normpath]; [new_comps]
    grows and shrinks at its end. *)
Definition normpath_step (slashes : nat) (new_comps : list string)
    (comp : string) : list string :=
  if String.eqb comp "" || String.eqb comp dot then new_comps
  else if negb (String.eqb comp dotdot)
          || (Nat.eqb slashes 0 && bool_decide (new_comps = []))
          || (negb (bool_decide (new_comps = []))
              && bool_decide (last new_comps = Some dotdot))
  then new_comps ++ [comp]
  else if negb (bool_decide (new_comps = [])) then removelast new_comps
  else new_comps.

(** [normpath(path)] *)
Definition normpath (path : string) : string :=
  if String.eqb path "" then dot
  else
    let slashes := initial_slashes path in
    let comps := Str.split sep path in
    let new_comps := fold_left (normpath_step slashes) comps [] in
    let path := Str.join sep_s new_comps in
    let path := if Nat.eqb slashes 0 then path
                else Str.mul sep_s slashes ++ path in
    if String.eqb path "" then dot else path.

(** [abspath(path)], with [os.getcwd()] as [cwd]. *)
Definition abspath (cwd path : string) : string :=
  let path := if negb (isabs path) then join cwd path else path in
  normpath path.

End posixpath.

(** ** Data model *)

(** The [path] argument: [Path = Union[str, os.PathLike]]. [PLike s] is a
    path-like object whose [__fspath__()] returns [s]. *)
Inductive Path :=
  | PStr (s : string)
  | PLike (s : string).

(** [os.fspath(path)] *)
Definition fspath (p : Path) : string :=
  match p with
  | PStr s => s
  | PLike s => s
  end.

(** Exceptions: the class, and what the message was formatted from. A
    [str] and a path-like object with the same text print differently. *)
Inductive exn_class :=
  | TypeError
  | ValueError
  | AttributeError
  | OtherError (cls : string).

(** [repr(x)], as [{!r}] prints it: of a [str], of a path-like object with
    that text, of the module of that name. *)
Inductive repr :=
  | ReprStr (s : string)
  | ReprPathLike (s : string)
  | ReprModule (name : string).

Inductive message :=
  | MsgNotAPackage (r : repr)   (* "{!r} is not a package" *)
  | MsgIsAbsolute (r : repr)    (* "{!r} is absolute" *)
  | MsgTraverse (r : repr)      (* "{!r} attempts to traverse past package" *)
  | MsgText (text : string).    (* raised by the runtime *)

Record exn := Exn { exn_class_of : exn_class; exn_message : message }.

Inductive result (A : Type) :=
  | Ok (a : A)
  | Raise (e : exn).
Arguments Ok {A} a.
Arguments Raise {A} e.

Abbreviation bytes := (list byte).

(** [module.__spec__.loader]: [get_data] is [None] for a loader without
    that method (the [Reader] of [tests/util.py] has none). *)
Record Loader := {
  get_data : option (string -> result bytes)
}.

(** [importlib.machinery.ModuleSpec]; [None] is Python's [None]. *)
Record ModuleSpec := {
  name : string;
  loader : option Loader;
  origin : option string;
  submodule_search_locations : option (list string)
}.

(** A module object. *)
Record ModuleType := {
  __name__ : string;
  __spec__ : option ModuleSpec
}.

(** The [package_name] argument: annotated [str], and the tests also pass a
    module object. *)
Inductive Package :=
  | Name (s : string)
  | Handle (m : ModuleType).

(** [io.BytesIO]: the buffer and the stream position. *)
Record BytesIO := {
  buffer : bytes;
  pos : nat
}.

Definition repr_path (p : Path) : repr :=
  match p with
  | PStr s => ReprStr s
  | PLike s => ReprPathLike s
  end.

Definition repr_package (p : Package) : repr :=
  match p with
  | Name s => ReprStr s
  | Handle m => ReprModule (__name__ m)
  end.

Definition BytesIO_tell (b : BytesIO) : nat := pos b.
Definition BytesIO_seek (b : BytesIO) (n : nat) : BytesIO :=
  {| buffer := buffer b; pos := n |}.
Definition BytesIO_read (b : BytesIO) : bytes * BytesIO :=
  (drop (pos b) (buffer b),
   {| buffer := buffer b; pos := max (pos b) (length (buffer b)) |}).

(** What a call does to its collaborators, in order. *)
Inductive event :=
  | EvImport (name : string)
  | EvGetData (location : string) (r : result bytes).

(** The process: the module cache [sys.modules], the working directory, the
    stream objects allocated so far (an object is its index), and the calls
    made to the collaborators. *)
Record World := {
  sys_modules : gmap string ModuleType;
  cwd : string;
  heap : list BytesIO;
  trace : list event
}.

Definition set_sys_modules (w : World) (sm : gmap string ModuleType) : World :=
  {| sys_modules := sm; cwd := cwd w; heap := heap w; trace := trace w |}.
Definition log (w : World) (e : event) : World :=
  {| sys_modules := sys_modules w; cwd := cwd w; heap := heap w;
     trace := (trace w ++ [e])%list |}.
Definition alloc (w : World) (b : BytesIO) : World :=
  {| sys_modules := sys_modules w; cwd := cwd w;
     heap := (heap w ++ [b])%list; trace := trace w |}.

(** ** Computations that may raise and that act on the process *)

Definition M (A : Type) : Type := World -> result A * World.

Definition raise {A} (c : exn_class) (m : message) : M A :=
  fun w => (Raise (Exn c m), w).

#[global] Instance M_ret : MRet M := fun A a w => (Ok a, w).

(** A raised exception ends the computation; what was done before stays
    done. *)
#[global] Instance M_bind : MBind M := fun A B k c w =>
  match c w with
  | (Ok a, w') => k a w'
  | (Raise e, w') => (Raise e, w')
  end.

(** ** The runtime *)

Section Runtime.

(** The import machinery behind [importlib.import_module] for a name:
    it reads and fills the module cache, and returns the module or
    raises. *)
Variable _gcd_import :
  string -> gmap string ModuleType ->
  result ModuleType * gmap string ModuleType.

(** [importlib.import_module(name)]. It starts with
    [name.startswith('.')]: a module object has no such attribute (a plain
    module, one that defines no [startswith] of its own), and a relative
    name needs the [package] argument, which is not passed. *)
Definition import_module (name : Package) : M ModuleType :=
  match name with
  | Handle m =>
      raise AttributeError (MsgText "module has no attribute 'startswith'")
  | Name s =>
      if Str.startswith s "." then
        raise TypeError
          (MsgText "the 'package' argument is required to perform a relative import")
      else fun w =>
        let (r, sm) := _gcd_import s (sys_modules w) in
        (r, log (set_sys_modules w sm) (EvImport s))
  end.

(** [module.__spec__], which the attributes of the spec are read from:
    reading an attribute of [None] raises [AttributeError]. *)
Definition attr__spec__ (module : ModuleType) : M ModuleSpec :=
  match __spec__ module with
  | None =>
      raise AttributeError
        (MsgText "'NoneType' object has no attribute")
  | Some spec => mret spec
  end.

(** [os.path.abspath(path)] for an attribute that may be [None]:
    [os.fspath(None)] raises [TypeError]. *)
Definition os_path_abspath (path : option string) : M string :=
  match path with
  | None =>
      raise TypeError
        (MsgText "expected str, bytes or os.PathLike object, not NoneType")
  | Some p => fun w => (Ok (posixpath.abspath (cwd w) p), w)
  end.

(** [package.__spec__.loader.get_data(full_path)]; what [get_data] returns
    or raises is taken as a function of the location alone. *)
Definition loader_get_data (spec : ModuleSpec) (full_path : string)
    : M bytes :=
  match loader spec with
  | None =>
      raise AttributeError
        (MsgText "'NoneType' object has no attribute 'get_data'")
  | Some l =>
      match get_data l with
      | None =>
          raise AttributeError
            (MsgText "loader object has no attribute 'get_data'")
      | Some f => fun w =>
          let r := f full_path in (r, log w (EvGetData full_path r))
      end
  end.

(** [io.BytesIO(data)]: a new stream object at position 0. *)
Definition io_BytesIO (data : bytes) : M nat :=
  fun w => (Ok (length (heap w)), alloc w {| buffer := data; pos := 0 |}).

(** ** [importlib_resources/__init__.py] *)

(** [_get_package], lines 11-16: the import comes first, whatever
    [package_name] is. *)
Definition _get_package (package_name : Package) : M ModuleType :=
  module ← import_module package_name;
  spec ← attr__spec__ module;
  match submodule_search_locations spec with
  | None => raise TypeError (MsgNotAPackage (repr_package package_name))
  | Some _ => mret module
  end.

(** [_normalize_path], lines 19-26. *)
Definition _normalize_path (path : Path) : M string :=
  if posixpath.isabs (fspath path) then
    raise ValueError (MsgIsAbsolute (repr_path path))
  else
    let normalized_path := posixpath.normpath (fspath path) in
    if Str.startswith normalized_path ".." then
      raise ValueError (MsgTraverse (repr_path path))
    else mret normalized_path.

(** [open], lines 29-36; the stream returned is the index of the new
    [BytesIO] object. *)
Definition open (package_name : Package) (path : Path) : M nat :=
  normalized_path ← _normalize_path path;
  package ← _get_package package_name;
  spec ← attr__spec__ package;
  abs_origin ← os_path_abspath (origin spec);
  let package_path := posixpath.dirname abs_origin in
  let full_path := posixpath.join package_path normalized_path in
  data ← loader_get_data spec full_path;
  io_BytesIO data.

End Runtime.

(** ** A host to run the code on *)

(** An import machinery that serves the module cache first and then asks a
    finder, caching what it finds. *)
Definition cache_import (finder : string -> option ModuleType)
    (name : string) (sm : gmap string ModuleType)
    : result ModuleType * gmap string ModuleType :=
  match sm !! name with
  | Some m => (Ok m, sm)
  | None =>
      match finder name with
      | Some m => (Ok m, <[name := m]> sm)
      | None =>
          (Raise (Exn (OtherError "ModuleNotFoundError")
                    (MsgText "No module named")), sm)
      end
  end.

(** The packages of the tests: [importlib_resources.tests.data] holds
    [utf-8.file]; [importlib_resources.tests.util] is a plain module. *)
Module Fixture.

Definition utf8_file : bytes :=
  Eval cbv in list_byte_of_string "Hello, UTF-8 world!".

(** A source loader over a file system with that one data file. *)
Definition source_get_data (location : string) : result bytes :=
  if String.eqb location "/site/importlib_resources/tests/data/utf-8.file"
  then Ok utf8_file
  else Raise (Exn (OtherError "FileNotFoundError") (MsgText location)).

Definition source_loader : Loader :=
  {| get_data := Some source_get_data |}.

Definition data : ModuleType :=
  {| __name__ := "importlib_resources.tests.data";
     __spec__ := Some
       {| name := "importlib_resources.tests.data";
          loader := Some source_loader;
          origin := Some "/site/importlib_resources/tests/data/__init__.py";
          submodule_search_locations :=
            Some ["/site/importlib_resources/tests/data"] |} |}.

Definition util : ModuleType :=
  {| __name__ := "importlib_resources.tests.util";
     __spec__ := Some
       {| name := "importlib_resources.tests.util";
          loader := Some source_loader;
          origin := Some "/site/importlib_resources/tests/util.py";
          submodule_search_locations := None |} |}.

Definition finder (name : string) : option ModuleType :=
  if String.eqb name "importlib_resources.tests.data" then Some data
  else if String.eqb name "importlib_resources.tests.util" then Some util
  else None.

Definition host := cache_import finder.

(** A process that has imported nothing yet. *)
Definition fresh : World :=
  {| sys_modules := ∅; cwd := "/home/user"; heap := []; trace := [] |}.

(** That process after [open('importlib_resources.tests.data',
    'utf-8.file')]. *)
Definition opened : World :=
  {| sys_modules := {["importlib_resources.tests.data" := data]};
     cwd := "/home/user";
     heap := [{| buffer := utf8_file; pos := 0 |}];
     trace := [EvImport "importlib_resources.tests.data";
               EvGetData "/site/importlib_resources/tests/data/utf-8.file"
                 (Ok utf8_file)] |}.

(** The process of the tests, which import both before they call. *)
Definition imported : World :=
  {| sys_modules :=
       <["importlib_resources.tests.util" := util]>
         {["importlib_resources.tests.data" := data]};
     cwd := "/home/user"; heap := []; trace := [] |}.

End Fixture.

(** Packages the import system can hand out that [open] cannot read: a
    namespace package, which has no origin and no loader, and a package
    whose loader has no [get_data]. *)
Module Edge.

Definition namespace_package : ModuleType :=
  {| __name__ := "ns";
     __spec__ := Some
       {| name := "ns"; loader := None; origin := None;
          submodule_search_locations := Some ["/site/ns"] |} |}.

Definition bare_package : ModuleType :=
  {| __name__ := "bare";
     __spec__ := Some
       {| name := "bare"; loader := Some {| get_data := None |};
          origin := Some "/site/bare/__init__.py";
          submodule_search_locations := Some ["/site/bare"] |} |}.

Definition finder (name : string) : option ModuleType :=
  if String.eqb name "ns" then Some namespace_package
  else if String.eqb name "bare" then Some bare_package
  else None.

Definition host := cache_import finder.

End Edge.

(** ** What a caller observes *)

(** The calls made to the collaborators between two states of the
    process. *)
Definition events_since (w w' : World) : list event :=
  drop (length (trace w)) (trace w').

(** Two calls end alike: the same process state, and streams with the same
    bytes at the same position, or exceptions of the same class. *)
Definition same_outcome (x y : result nat * World) : Prop :=
  snd x = snd y /\
  match fst x, fst y with
  | Ok a, Ok b => a = b /\ heap (snd x) !! a = heap (snd y) !! b
  | Raise e1, Raise e2 => exn_class_of e1 = exn_class_of e2
  | _, _ => False
  end.

(** A call gets as far as [get_data]: the path passed validation, the name
    resolved to [package], a package with an origin and a loader whose
    [get_data] is [f]; [location] is what [f] is called with, and [w1] the
    process at that point. *)
Definition reaches_get_data
    (host : string -> gmap string ModuleType ->
            result ModuleType * gmap string ModuleType)
    (package_name : Package) (path : Path) (w : World)
    (package : ModuleType) (f : string -> result bytes)
    (location : string) (w1 : World) : Prop :=
  exists s sm spec o l,
    package_name = Name s /\ Str.startswith s "." = false /\
    posixpath.isabs (fspath path) = false /\
    Str.startswith (posixpath.normpath (fspath path)) ".." = false /\
    host s (sys_modules w) = (Ok package, sm) /\
    w1 = log (set_sys_modules w sm) (EvImport s) /\
    __spec__ package = Some spec /\
    is_Some (submodule_search_locations spec) /\
    origin spec = Some o /\
    loader spec = Some l /\ get_data l = Some f /\
    location = posixpath.join
                 (posixpath.dirname (posixpath.abspath (cwd w) o))
                 (posixpath.normpath (fspath path)).

(** The four ways a call of [open] ends. *)
Inductive open_run
    (host : string -> gmap string ModuleType ->
            result ModuleType * gmap string ModuleType)
    (package_name : Package) (path : Path) (w : World)
    : result nat -> World -> Prop :=
  | run_rejected e :
      (* before any collaborator is called *)
      open_run host package_name path w (Raise e) w
  | run_unresolved s sm e :
      (* during or after the import, before [get_data] *)
      package_name = Name s ->
      open_run host package_name path w
        (Raise e) (log (set_sys_modules w sm) (EvImport s))
  | run_load_failed package f location w1 e :
      reaches_get_data host package_name path w package f location w1 ->
      f location = Raise e ->
      open_run host package_name path w
        (Raise e) (log w1 (EvGetData location (Raise e)))
  | run_opened package f location w1 data :
      reaches_get_data host package_name path w package f location w1 ->
      f location = Ok data ->
      open_run host package_name path w
        (Ok (length (heap w)))
        (alloc (log w1 (EvGetData location (Ok data)))
           {| buffer := data; pos := 0 |}).

(** ** Segments of a path *)

(** [c in s] for a character [c]. *)
Fixpoint contains (c : ascii) (s : string) : bool :=
  match s with
  | EmptyString => false
  | String a s' => Ascii.eqb a c || contains c s'
  end.

(** A segment that names an entry of a directory: not empty, not the
    directory itself, not its parent. *)
Definition proper_segment (c : string) : Prop :=
  c <> "" /\ c <> "." /\ c <> "..".

(** The segments a relative path is normalized to: parent steps first, then
    names. *)
Definition leading_dotdots (l : list string) : Prop :=
  exists k names,
    l = (replicate k ".." ++ names)%list /\ Forall proper_segment names.

(** ** Facts about the string and path functions *)

Lemma startswith_cons a p b s :
  Str.startswith (String b s) (String a p)
  = if ascii_dec a b then Str.startswith s p else false.
Proof. reflexivity. Qed.

Lemma split_nonempty sep s : Str.split sep s <> [].
Proof.
  destruct s as [|c s]; simpl; [done|].
  destruct (Ascii.eqb c sep); [done|].
  destruct (Str.split sep s); done.
Qed.

(** The first segment of a string is a prefix of it. *)
Lemma split_head_startswith sep s seg :
  head (Str.split sep s) = Some seg -> Str.startswith s seg = true.
Proof.
  unfold Str.startswith. revert seg.
  induction s as [|c s IH]; intros seg; simpl.
  - intros [= <-]. reflexivity.
  - destruct (Ascii.eqb c sep).
    + intros [= <-]. reflexivity.
    + destruct (Str.split sep s) as [|h t] eqn:E.
      * exfalso. by eapply split_nonempty.
      * intros [= <-]. simpl.
        destruct (ascii_dec c c) as [_|]; [|done].
        apply IH. reflexivity.
Qed.

Lemma startswith_sep_app (n : nat) (s : string) :
  n <> 0 -> Str.startswith (Str.mul posixpath.sep_s n ++ s) "/" = true.
Proof.
  destruct n as [|n]; [done|]. intros _.
  change (String.prefix "/" (String "/" (Str.mul posixpath.sep_s n ++ s)) = true).
  simpl. by destruct (_ ++ _).
Qed.

Lemma initial_slashes_isabs s :
  posixpath.isabs s = true -> posixpath.initial_slashes s <> 0.
Proof.
  unfold posixpath.isabs, posixpath.initial_slashes. intros ->.
  by destruct (_ && _).
Qed.

(** Normalization keeps an absolute path absolute. *)
Lemma normpath_isabs s :
  posixpath.isabs s = true -> posixpath.isabs (posixpath.normpath s) = true.
Proof.
  intros Habs. unfold posixpath.normpath.
  destruct (String.eqb_spec s "") as [->|_]; [discriminate|].
  pose proof (initial_slashes_isabs s Habs) as Hn.
  destruct (posixpath.initial_slashes s) as [|k] eqn:Ek; [done|].
  simpl Nat.eqb. cbv iota zeta.
  pose proof (startswith_sep_app (S k)
                (Str.join posixpath.sep_s
                   (fold_left (posixpath.normpath_step (S k))
                      (Str.split posixpath.sep s) [])) Hn) as Hp.
  destruct (String.eqb_spec
              (Str.mul posixpath.sep_s (S k) ++
               Str.join posixpath.sep_s
                 (fold_left (posixpath.normpath_step (S k))
                    (Str.split posixpath.sep s) [])) "") as [E|_].
  - rewrite E in Hp. discriminate.
  - exact Hp.
Qed.

(** A string with a first character other than [/] is not absolute. *)
Lemma startswith_dotdot_not_isabs s :
  Str.startswith s ".." = true -> posixpath.isabs s = false.
Proof.
  destruct s as [|c s]; [done|].
  unfold posixpath.isabs, posixpath.sep_s. rewrite !startswith_cons.
  destruct (ascii_dec "." c) as [<-|]; [|done]. intros _.
  by destruct (ascii_dec "/" ".").
Qed.

(** So a path whose normal form starts with [..] is a relative path. *)
Lemma normpath_dotdot_relative s :
  Str.startswith (posixpath.normpath s) ".." = true ->
  posixpath.isabs s = false.
Proof.
  intros H. destruct (posixpath.isabs s) eqn:E; [|done].
  apply normpath_isabs in E.
  apply startswith_dotdot_not_isabs in H. congruence.
Qed.

(** [posixpath] on paths of the kind the code meets. *)

Example normpath_ex1 : posixpath.normpath "a/./b//c/../d" = "a/b/d".
Proof. reflexivity. Qed.
Example normpath_ex2 : posixpath.normpath "a/../../b" = "../b".
Proof. reflexivity. Qed.
Example normpath_ex3 : posixpath.normpath "//a/../.." = "//".
Proof. reflexivity. Qed.
Example normpath_ex4 : posixpath.normpath "///a/" = "/a".
Proof. reflexivity. Qed.
Example normpath_ex5 : posixpath.normpath "./" = ".".
Proof. reflexivity. Qed.
Example dirname_ex1 : posixpath.dirname "/a/b/__init__.py" = "/a/b".
Proof. reflexivity. Qed.
Example dirname_ex2 : posixpath.dirname "//x" = "//".
Proof. reflexivity. Qed.
Example dirname_ex3 : posixpath.dirname "x" = "".
Proof. reflexivity. Qed.
Example dirname_ex4 : posixpath.dirname "/a//b" = "/a".
Proof. reflexivity. Qed.
Example join_ex1 : posixpath.join "/a/b" "c/d" = "/a/b/c/d".
Proof. reflexivity. Qed.
Example join_ex2 : posixpath.join "/a/" "c" = "/a/c".
Proof. reflexivity. Qed.
Example join_ex3 : posixpath.join "" "c" = "c".
Proof. reflexivity. Qed.
Example abspath_ex1 : posixpath.abspath "/home/u" "does-not-exist" = "/home/u/does-not-exist".
Proof. reflexivity. Qed.
Example normpath_ex6 : posixpath.normpath "..hidden/file" = "..hidden/file".
Proof. reflexivity. Qed.
Example normpath_ex7 : posixpath.normpath "a/.." = ".".
Proof. reflexivity. Qed.
Example split_ex1 : Str.split "/" "/a//b" = [""; "a"; ""; "b"].
Proof. reflexivity. Qed.

(** ** Facts about the computations *)

Lemma bind_Ok {A B} (c : M A) (k : A -> M B) w a w' :
  c w = (Ok a, w') -> (c ≫= k) w = k a w'.
Proof. unfold mbind, M_bind. by intros ->. Qed.

Lemma bind_Raise {A B} (c : M A) (k : A -> M B) w e w' :
  c w = (Raise e, w') -> (c ≫= k) w = (Raise e, w').
Proof. unfold mbind, M_bind. by intros ->. Qed.

Lemma events_since_app w w' l :
  trace w' = (trace w ++ l)%list -> events_since w w' = l.
Proof. unfold events_since. intros ->. by rewrite drop_app_length. Qed.

Lemma events_since_log1 w w1 e :
  trace w1 = trace w -> events_since w (log w1 e) = [e].
Proof. intros H. apply events_since_app. simpl. by rewrite H. Qed.

Lemma events_since_log w w1 l e :
  events_since w w1 = l -> length (trace w) <= length (trace w1) ->
  events_since w (log w1 e) = (l ++ [e])%list.
Proof.
  unfold events_since. intros <- Hle. simpl. by rewrite drop_app_le.
Qed.

Lemma events_since_alloc w w1 b :
  events_since w (alloc w1 b) = events_since w w1.
Proof. reflexivity. Qed.

(** Membership in a list of events written out. *)
Ltac elem_of_events H :=
  repeat first
    [ apply elem_of_nil in H; destruct H
    | apply elem_of_cons in H as [H|H] ];
  try discriminate H.

Lemma events_since_refl w : events_since w w = [].
Proof. unfold events_since. by rewrite drop_all. Qed.

Section Open.

Variable host :
  string -> gmap string ModuleType ->
  result ModuleType * gmap string ModuleType.

(** *** [_normalize_path] *)

Lemma _normalize_path_absolute path w :
  posixpath.isabs (fspath path) = true ->
  _normalize_path path w
  = (Raise (Exn ValueError (MsgIsAbsolute (repr_path path))), w).
Proof. unfold _normalize_path. by intros ->. Qed.

Lemma _normalize_path_traverse path w :
  Str.startswith (posixpath.normpath (fspath path)) ".." = true ->
  _normalize_path path w
  = (Raise (Exn ValueError (MsgTraverse (repr_path path))), w).
Proof.
  intros H. unfold _normalize_path.
  rewrite (normpath_dotdot_relative _ H). by rewrite H.
Qed.

Lemma _normalize_path_valid path w :
  posixpath.isabs (fspath path) = false ->
  Str.startswith (posixpath.normpath (fspath path)) ".." = false ->
  _normalize_path path w = (Ok (posixpath.normpath (fspath path)), w).
Proof. unfold _normalize_path. by intros -> ->. Qed.

(** [_normalize_path] leaves the process as it was. *)
Lemma _normalize_path_pure path w r w' :
  _normalize_path path w = (r, w') -> w' = w.
Proof.
  unfold _normalize_path.
  destruct (posixpath.isabs _); [by intros [= _ <-]|].
  destruct (Str.startswith _ _); by intros [= _ <-].
Qed.

Lemma _normalize_path_Ok_inv path w s w' :
  _normalize_path path w = (Ok s, w') ->
  posixpath.isabs (fspath path) = false /\
  Str.startswith (posixpath.normpath (fspath path)) ".." = false /\
  s = posixpath.normpath (fspath path) /\ w' = w.
Proof.
  unfold _normalize_path.
  destruct (posixpath.isabs _); [done|].
  destruct (Str.startswith _ _); [done|].
  by intros [= <- <-].
Qed.

(** A path that does not pass validation ends [open] there. *)
Lemma open_invalid_path package_name path w e w' :
  _normalize_path path w = (Raise e, w') ->
  open host package_name path w = (Raise e, w').
Proof. intros H. unfold open. by rewrite (bind_Raise _ _ _ _ _ H). Qed.

(** *** The steps of [open], one by one *)

Lemma import_module_inv package_name w r w' :
  import_module host package_name w = (r, w') ->
  (w' = w /\ exists e, r = Raise e) \/
  (exists s sm, package_name = Name s /\ Str.startswith s "." = false /\
     host s (sys_modules w) = (r, sm) /\
     w' = log (set_sys_modules w sm) (EvImport s)).
Proof.
  unfold import_module, raise.
  destruct package_name as [s|m].
  - destruct (Str.startswith s ".") eqn:Hrel.
    + intros [= <- <-]. left. eauto.
    + destruct (host s (sys_modules w)) as [r0 sm] eqn:Hh.
      intros [= <- <-]. right. by exists s, sm.
  - intros [= <- <-]. left. eauto.
Qed.

Lemma attr__spec___inv module w r w' :
  attr__spec__ module w = (r, w') ->
  w' = w /\
  ((__spec__ module = None /\ exists e, r = Raise e) \/
   (exists spec, __spec__ module = Some spec /\ r = Ok spec)).
Proof.
  unfold attr__spec__, raise.
  destruct (__spec__ module) as [spec|]; intros [= <- <-];
    (split; [done|]); [right|left]; eauto.
Qed.

Lemma _get_package_inv package_name w r w' :
  _get_package host package_name w = (r, w') ->
  (w' = w /\ exists e, r = Raise e) \/
  (exists s sm, package_name = Name s /\ Str.startswith s "." = false /\
     w' = log (set_sys_modules w sm) (EvImport s) /\
     ((exists e, host s (sys_modules w) = (Raise e, sm) /\ r = Raise e) \/
      (exists module, host s (sys_modules w) = (Ok module, sm) /\
         match __spec__ module with
         | None => exists e, r = Raise e
         | Some spec =>
             match submodule_search_locations spec with
             | None => r = Raise (Exn TypeError (MsgNotAPackage (ReprStr s)))
             | Some _ => r = Ok module
             end
         end))).
Proof.
  unfold _get_package. intros H.
  destruct (import_module host package_name w) as [[module|e] w1] eqn:Hi.
  - rewrite (bind_Ok _ _ _ _ _ Hi) in H.
    apply import_module_inv in Hi as [[_ [e [=]]]|(s & sm & -> & Hrel & Hh & ->)].
    assert (w' = log (set_sys_modules w sm) (EvImport s) /\
            match __spec__ module with
            | None => exists e, r = Raise e
            | Some spec =>
                match submodule_search_locations spec with
                | None =>
                    r = Raise (Exn TypeError (MsgNotAPackage (ReprStr s)))
                | Some _ => r = Ok module
                end
            end) as [-> Hr].
    { unfold attr__spec__, raise, mbind, M_bind, mret, M_ret in H.
      destruct (__spec__ module) as [spec|].
      - destruct (submodule_search_locations spec);
          by injection H as <- <-.
      - injection H as <- <-. eauto. }
    right. exists s, sm. do 3 (split; [done|]). right. by exists module.
  - rewrite (bind_Raise _ _ _ _ _ Hi) in H. injection H as <- <-.
    apply import_module_inv in Hi as [[-> _]|(s & sm & -> & Hrel & Hh & ->)].
    + left. eauto.
    + right. exists s, sm. do 3 (split; [done|]). left. eauto.
Qed.

Lemma os_path_abspath_inv path w r w' :
  os_path_abspath path w = (r, w') ->
  w' = w /\
  ((path = None /\ exists e, r = Raise e) \/
   (exists p, path = Some p /\ r = Ok (posixpath.abspath (cwd w) p))).
Proof.
  unfold os_path_abspath, raise.
  destruct path as [p|]; intros [= <- <-]; (split; [done|]);
    [right|left]; eauto.
Qed.

Lemma loader_get_data_inv spec location w r w' :
  loader_get_data spec location w = (r, w') ->
  (w' = w /\ exists e, r = Raise e) \/
  (exists l f, loader spec = Some l /\ get_data l = Some f /\
     r = f location /\ w' = log w (EvGetData location r)).
Proof.
  unfold loader_get_data, raise.
  destruct (loader spec) as [l|]; [destruct (get_data l) as [f|] eqn:Hf|];
    intros [= <- <-]; [right|left|left]; eauto 10.
Qed.

(** *** The runs of [open] *)

(** [open] step by step, each step on the process the step before it
    left. *)
Lemma open_unfold package_name path w :
  open host package_name path w =
  match _normalize_path path w with
  | (Raise e, w1) => (Raise e, w1)
  | (Ok normalized_path, w1) =>
  match _get_package host package_name w1 with
  | (Raise e, w2) => (Raise e, w2)
  | (Ok package, w2) =>
  match attr__spec__ package w2 with
  | (Raise e, w3) => (Raise e, w3)
  | (Ok spec, w3) =>
  match os_path_abspath (origin spec) w3 with
  | (Raise e, w4) => (Raise e, w4)
  | (Ok abs_origin, w4) =>
  match loader_get_data spec
          (posixpath.join (posixpath.dirname abs_origin) normalized_path)
          w4 with
  | (Raise e, w5) => (Raise e, w5)
  | (Ok data, w5) => io_BytesIO data w5
  end end end end end.
Proof.
  unfold open, mbind, M_bind.
  repeat (match goal with |- context [match ?x with _ => _ end] =>
            destruct x as [[?|?] ?] end); reflexivity.
Qed.

Lemma open_runs package_name path w r w' :
  open host package_name path w = (r, w') ->
  open_run host package_name path w r w'.
Proof.
  rewrite open_unfold.
  destruct (_normalize_path path w) as [[np|e] w1] eqn:Hn.
  2:{ apply _normalize_path_pure in Hn as ->. intros [= <- <-]. constructor. }
  apply _normalize_path_Ok_inv in Hn as (Habs & Hdd & -> & ->).
  destruct (_get_package host package_name w) as [[package|e] w2] eqn:Hp.
  2:{ intros [= <- <-].
      apply _get_package_inv in Hp
        as [[-> _]|(s & sm & -> & _ & -> & _)]; by constructor. }
  apply _get_package_inv in Hp
    as [[_ [e [=]]]|(s & sm & -> & Hrel & -> & [(e & _ & [=])|(m & Hh & Hm)])].
  destruct (__spec__ m) as [spec|] eqn:Hspec; [|by destruct Hm].
  destruct (submodule_search_locations spec) as [ssl|] eqn:Hssl; [|done].
  injection Hm as ->.
  unfold attr__spec__. rewrite Hspec. unfold mret, M_ret.
  destruct (os_path_abspath (origin spec) _) as [[abs_origin|e] w4] eqn:Ha.
  2:{ intros [= <- <-].
      apply os_path_abspath_inv in Ha as [-> _]. by constructor. }
  apply os_path_abspath_inv in Ha
    as [-> [[_ [e [=]]]|(o & Ho & [= ->])]].
  simpl cwd.
  destruct (loader_get_data spec _ _) as [[data|e] w5] eqn:Hl;
    apply loader_get_data_inv in Hl
      as [[-> [e' Hr]]|(l & f & Hld & Hf & Hr & ->)];
    try discriminate Hr; intros [= <- <-]; simplify_eq.
  - eapply run_opened; [|by symmetry].
    exists s, sm, spec, o, l. rewrite Hssl. eauto 15.
  - by constructor.
  - eapply run_load_failed; [|by symmetry].
    exists s, sm, spec, o, l. rewrite Hssl. eauto 15.
Qed.

(** Forward: what the first two steps do on a call that gets as far as
    [get_data]. *)
Lemma reaches_get_data_steps package_name path w package f location w1 :
  reaches_get_data host package_name path w package f location w1 ->
  _normalize_path path w = (Ok (posixpath.normpath (fspath path)), w) /\
  _get_package host package_name w = (Ok package, w1) /\
  heap w1 = heap w /\ cwd w1 = cwd w /\
  exists s, package_name = Name s /\
    trace w1 = (trace w ++ [EvImport s])%list.
Proof.
  intros (s & sm & spec & o & l & -> & Hrel & Habs & Hdd & Hh & -> &
          Hspec & [ssl Hssl] & _).
  split; [by apply _normalize_path_valid|].
  split.
  - unfold _get_package, import_module, attr__spec__.
    rewrite Hrel. unfold mbind, M_bind. rewrite Hh, Hspec.
    unfold mret, M_ret. by rewrite Hssl.
  - do 2 (split; [done|]). by exists s.
Qed.

Lemma same_outcome_refl x : same_outcome x x.
Proof. split; [done|]. by destruct (fst x). Qed.

End Open.

(** ** What [open] promises *)

Section Contract.

Variable host :
  string -> gmap string ModuleType ->
  result ModuleType * gmap string ModuleType.

(** C2, as the code has it: path validation comes first, package
    resolution second. A call whose path is absolute, or whose normal form
    starts with [..], fails with [ValueError] (InvalidPath) whatever
    [package_name] is, also when it names a module that is not a package;
    the process is left as it was, so nothing was resolved. *)
Theorem open_validates_path_before_resolving package_name path w :
  posixpath.isabs (fspath path) = true \/
  Str.startswith (posixpath.normpath (fspath path)) ".." = true ->
  exists e,
    open host package_name path w = (Raise e, w) /\
    exn_class_of e = ValueError /\
    _normalize_path path w = (Raise e, w).
Proof.
  intros [Habs|Hdd].
  - eexists. split; [|split]; [apply open_invalid_path| |];
      try apply (_normalize_path_absolute _ _ Habs). done.
  - eexists. split; [|split]; [apply open_invalid_path| |];
      try apply (_normalize_path_traverse _ _ Hdd). done.
Qed.

(** C3: a successful call returns a stream object that did not exist
    before the call; its buffer is exactly the bytes [get_data] of the
    package's loader returned, in the call the trace ends with; its
    position is 0, so a read to the end gives those bytes, and so does
    another read after seeking back to 0; the streams that existed are
    untouched. *)
Theorem open_returns_new_stream_of_loaded_bytes
    package_name path w stream w' :
  open host package_name path w = (Ok stream, w') ->
  exists package spec l f location data,
    fst (_get_package host package_name w) = Ok package /\
    __spec__ package = Some spec /\ loader spec = Some l /\
    get_data l = Some f /\ f location = Ok data /\
    last (trace w') = Some (EvGetData location (Ok data)) /\
    heap w !! stream = None /\
    heap w' = (heap w ++ [{| buffer := data; pos := 0 |}])%list /\
    exists b, heap w' !! stream = Some b /\
      BytesIO_tell b = 0 /\ fst (BytesIO_read b) = data /\
      fst (BytesIO_read (BytesIO_seek (snd (BytesIO_read b)) 0)) = data.
Proof.
  intros H. apply open_runs in H.
  inversion H as [| | |package f location w1 data Hreach Hf]; subst.
  pose proof (reaches_get_data_steps _ _ _ _ _ _ _ _ Hreach)
    as (_ & Hp & Hheap & _).
  destruct Hreach as (s & sm & spec & o & l & -> & _ & _ & _ & _ & -> &
                      Hspec & _ & _ & Hl & Hgd & _).
  exists package, spec, l, f, location, data.
  rewrite Hp. do 5 (split; [done|]).
  split. { simpl. by rewrite last_snoc. }
  split. { by apply lookup_ge_None_2. }
  split; [done|].
  eexists. split; [|split; [|split]].
  - simpl. by apply list_lookup_middle.
  - done.
  - done.
  - done.
Qed.

(** C4: an absolute path makes [open] fail with [ValueError]
    (InvalidPath), for every package and every loader; the process is as
    before, so neither the import system nor [get_data] was called. *)
Theorem open_absolute_path_ValueError package_name path w :
  posixpath.isabs (fspath path) = true ->
  open host package_name path w
  = (Raise (Exn ValueError (MsgIsAbsolute (repr_path path))), w) /\
  forall r w', open host package_name path w = (r, w') ->
               events_since w w' = [].
Proof.
  intros Habs.
  assert (open host package_name path w
          = (Raise (Exn ValueError (MsgIsAbsolute (repr_path path))), w))
    as Ho.
  { apply open_invalid_path. by apply _normalize_path_absolute. }
  split; [done|].
  intros r w'. rewrite Ho. intros [= _ <-]. apply events_since_refl.
Qed.

(** C5: a path whose normal form has [..] as its first segment makes
    [open] fail with [ValueError] (InvalidPath). The test is on the text
    of the normal form alone: [_normalize_path] raises the traversal error
    exactly when that text starts with [..], whatever the package and
    wherever it lies. *)
Theorem open_parent_traversal_ValueError package_name path w :
  (head (Str.split "/" (posixpath.normpath (fspath path))) = Some ".." ->
   open host package_name path w
   = (Raise (Exn ValueError (MsgTraverse (repr_path path))), w)) /\
  (fst (_normalize_path path w)
   = Raise (Exn ValueError (MsgTraverse (repr_path path)))
   <-> Str.startswith (posixpath.normpath (fspath path)) ".." = true).
Proof.
  split.
  - intros Hseg. apply split_head_startswith in Hseg.
    apply open_invalid_path. by apply _normalize_path_traverse.
  - split.
    + unfold _normalize_path, raise.
      destruct (posixpath.isabs _); [done|].
      by destruct (Str.startswith _ _).
    + intros Hdd. by rewrite (_normalize_path_traverse _ _ Hdd).
Qed.

(** C6, as the code has it: when the path passes validation and the name
    resolves to a module whose [submodule_search_locations] is [None],
    [open] fails with [TypeError] (NotAPackage); the loader's [get_data]
    is not called, whatever it would have returned. *)
Theorem open_module_TypeError s path w module w1 spec :
  posixpath.isabs (fspath path) = false ->
  Str.startswith (posixpath.normpath (fspath path)) ".." = false ->
  import_module host (Name s) w = (Ok module, w1) ->
  __spec__ module = Some spec ->
  submodule_search_locations spec = None ->
  open host (Name s) path w
  = (Raise (Exn TypeError (MsgNotAPackage (ReprStr s))), w1) /\
  events_since w w1 = [EvImport s].
Proof.
  intros Habs Hdd Hi Hspec Hssl. split.
  - rewrite open_unfold, (_normalize_path_valid _ _ Habs Hdd).
    unfold _get_package. rewrite (bind_Ok _ _ _ _ _ Hi).
    unfold attr__spec__. rewrite Hspec.
    unfold mbind, M_bind, mret, M_ret. by rewrite Hssl.
  - apply import_module_inv in Hi
      as [[_ [e [=]]]|(s' & sm & [= <-] & _ & _ & ->)].
    by apply events_since_log1.
Qed.

(** C7: on a successful call [get_data] is called once, after the import,
    with the directory of the absolute form of the package's origin joined
    with the normalized path that [_normalize_path] returned. *)
Theorem open_get_data_location package_name path w stream w' :
  open host package_name path w = (Ok stream, w') ->
  exists s package spec o normalized_path data,
    package_name = Name s /\
    fst (_get_package host package_name w) = Ok package /\
    __spec__ package = Some spec /\ origin spec = Some o /\
    fst (_normalize_path path w) = Ok normalized_path /\
    events_since w w'
    = [EvImport s;
       EvGetData
         (posixpath.join
            (posixpath.dirname (posixpath.abspath (cwd w) o))
            normalized_path)
         (Ok data)].
Proof.
  intros H. apply open_runs in H.
  inversion H as [| | |package f location w1 data Hreach Hf]; subst.
  pose proof (reaches_get_data_steps _ _ _ _ _ _ _ _ Hreach)
    as (Hn & Hp & _ & _ & _).
  destruct Hreach as (s & sm & spec & o & l & -> & _ & _ & _ & _ & -> &
                      Hspec & _ & Ho & _ & _ & ->).
  exists s, package, spec, o, (posixpath.normpath (fspath path)), data.
  rewrite Hn, Hp. do 5 (split; [done|]).
  unfold events_since. simpl.
  by rewrite <- app_assoc, drop_app_length.
Qed.

(** C8: when the loader's own [get_data], called with the location [open]
    computes, raises an exception, [open] raises that very exception and
    creates no stream. Over all calls: an exception logged for a call of
    [get_data] is the one that function raised and the one [open] raises; a
    call that raises has created no stream; a call that returns has created
    the stream with all the bytes that function returned. *)
Theorem open_propagates_get_data_failure package_name path w :
  (forall normalized_path package w1 spec o l f e,
      _normalize_path path w = (Ok normalized_path, w) ->
      _get_package host package_name w = (Ok package, w1) ->
      __spec__ package = Some spec -> origin spec = Some o ->
      loader spec = Some l -> get_data l = Some f ->
      f (posixpath.join
           (posixpath.dirname (posixpath.abspath (cwd w1) o))
           normalized_path) = Raise e ->
      open host package_name path w
      = (Raise e,
         log w1
           (EvGetData
              (posixpath.join
                 (posixpath.dirname (posixpath.abspath (cwd w1) o))
                 normalized_path)
              (Raise e))) /\
      heap w1 = heap w) /\
  (forall r w',
      open host package_name path w = (r, w') ->
      (forall location e,
          EvGetData location (Raise e) ∈ events_since w w' ->
          r = Raise e /\
          exists package spec l f,
            fst (_get_package host package_name w) = Ok package /\
            __spec__ package = Some spec /\ loader spec = Some l /\
            get_data l = Some f /\ f location = Raise e) /\
      (forall e, r = Raise e -> heap w' = heap w) /\
      (forall stream, r = Ok stream ->
         exists package spec l f location data,
           fst (_get_package host package_name w) = Ok package /\
           __spec__ package = Some spec /\ loader spec = Some l /\
           get_data l = Some f /\ f location = Ok data /\
           heap w' !! stream = Some {| buffer := data; pos := 0 |})).
Proof.
  split.
  - intros np package w1 spec o l f e Hn Hp Hspec Ho Hl Hgd Hf. split.
    + rewrite open_unfold, Hn, Hp.
      unfold attr__spec__. rewrite Hspec. unfold mret, M_ret.
      unfold os_path_abspath. rewrite Ho.
      unfold loader_get_data. rewrite Hl, Hgd. cbv beta zeta.
      by rewrite Hf.
    + apply _get_package_inv in Hp
        as [[-> _]|(s & sm & _ & _ & -> & _)]; done.
  - intros r w' H. apply open_runs in H.
    inversion H as [e|s sm e Hname|package f location w1 e Hreach Hf
                   |package f location w1 data Hreach Hf]; subst.
    + rewrite events_since_refl. split; [|split]; try done.
      intros ?? Hin. elem_of_events Hin.
    + rewrite events_since_log1 by done. split; [|split]; try done.
      intros ?? Hin. elem_of_events Hin.
    + pose proof (reaches_get_data_steps _ _ _ _ _ _ _ _ Hreach)
        as (_ & Hp & Hheap & _ & s & _ & Htr).
      rewrite (events_since_app w _
                 [EvImport s; EvGetData location (Raise e)])
        by (simpl; rewrite Htr; by rewrite <- app_assoc).
      split; [|split]; try done.
      intros loc e' Hin. elem_of_events Hin. injection Hin as -> ->.
      split; [done|].
      destruct Hreach as (? & ? & spec & ? & l & _ & _ & _ & _ & _ & _ &
                          Hspec & _ & _ & Hl & Hgd & _).
      exists package, spec, l, f. by rewrite Hp.
    + pose proof (reaches_get_data_steps _ _ _ _ _ _ _ _ Hreach)
        as (_ & Hp & Hheap & _ & s & _ & Htr).
      rewrite (events_since_app w _
                 [EvImport s; EvGetData location (Ok data)])
        by (simpl; rewrite Htr; by rewrite <- app_assoc).
      split; [|split]; try done.
      * intros loc e' Hin. elem_of_events Hin.
      * intros stream [= <-].
        destruct Hreach as (? & ? & spec & ? & l & _ & _ & _ & _ & _ & _ &
                            Hspec & _ & _ & Hl & Hgd & _).
        exists package, spec, l, f, location, data.
        rewrite Hp. do 5 (split; [done|]).
        simpl. rewrite <- Hheap. by apply list_lookup_middle.
Qed.

(** C9: a path given as a [str] and given as a path-like object with the
    same text end alike: the same process state, and the same stream with
    the same bytes, or an exception of the same class (the messages differ,
    as the two print differently). *)
Theorem open_path_type_equivalence package_name s w :
  same_outcome (open host package_name (PStr s) w)
               (open host package_name (PLike s) w).
Proof.
  rewrite !open_unfold. unfold _normalize_path, raise. cbn [fspath].
  destruct (posixpath.isabs s); [by split|].
  destruct (Str.startswith (posixpath.normpath s) ".."); [by split|].
  apply same_outcome_refl.
Qed.

(** C10: the traversal test is a test on the first two characters: a path
    whose normal form starts with [..] is rejected with [ValueError], and
    so is [..hidden/file], whose first segment is [..hidden] and which
    stays below the directory it is joined to. *)
Theorem open_dotdot_prefix_ValueError package_name path w :
  (Str.startswith (posixpath.normpath (fspath path)) ".." = true ->
   open host package_name path w
   = (Raise (Exn ValueError (MsgTraverse (repr_path path))), w)) /\
  (head (Str.split "/" (posixpath.normpath "..hidden/file"))
   = Some "..hidden" /\
   posixpath.normpath (posixpath.join "/site/pkg" "..hidden/file")
   = "/site/pkg/..hidden/file" /\
   open host package_name (PStr "..hidden/file") w
   = (Raise (Exn ValueError (MsgTraverse (ReprStr "..hidden/file"))), w)).
Proof.
  split; [|split; [|split]]; try reflexivity.
  intros Hdd. apply open_invalid_path.
  by apply _normalize_path_traverse.
Qed.

End Contract.

(** ** The code on the packages of the tests *)

(** C1: [tests/util.py] passes the package object itself
    ([test_package_object]) and expects the call to succeed as it does for
    the package's name. By name the call returns a stream; for the object,
    [import_module] is called all the same and raises [AttributeError]. *)
Theorem open_package_object_raises_AttributeError :
  fst (open Fixture.host (Name "importlib_resources.tests.data")
         (PStr "utf-8.file") Fixture.imported) = Ok 0 /\
  heap (snd (open Fixture.host (Name "importlib_resources.tests.data")
               (PStr "utf-8.file") Fixture.imported))
  = [{| buffer := Fixture.utf8_file; pos := 0 |}] /\
  open Fixture.host (Handle Fixture.data) (PStr "utf-8.file") Fixture.imported
  = (Raise (Exn AttributeError
              (MsgText "module has no attribute 'startswith'")),
     Fixture.imported).
Proof. repeat split; reflexivity. Qed.

(** C2 fails here: the name resolves to a module that is not a package and
    the path escapes to the parent, and the call raises [ValueError], not
    the [TypeError] of a module that is not a package; the module was not
    even imported. *)
Lemma open_module_parent_path_raises_ValueError :
  fst (_get_package Fixture.host (Name "importlib_resources.tests.util")
         Fixture.fresh)
  = Raise (Exn TypeError
             (MsgNotAPackage (ReprStr "importlib_resources.tests.util"))) /\
  Str.startswith (posixpath.normpath "../data/utf-8.file") ".." = true /\
  open Fixture.host (Name "importlib_resources.tests.util")
    (PStr "../data/utf-8.file") Fixture.fresh
  = (Raise (Exn ValueError (MsgTraverse (ReprStr "../data/utf-8.file"))),
     Fixture.fresh) /\
  forall m,
    fst (open Fixture.host (Name "importlib_resources.tests.util")
           (PStr "../data/utf-8.file") Fixture.fresh)
    <> Raise (Exn TypeError m).
Proof. repeat split; try reflexivity. intros m. discriminate. Qed.

(** C6 fails here: the name resolves to a module whose
    [submodule_search_locations] is [None], and with an absolute path the
    call raises [ValueError], not [TypeError]. *)
Lemma open_module_absolute_path_raises_ValueError :
  fst (import_module Fixture.host (Name "importlib_resources.tests.util")
         Fixture.fresh) = Ok Fixture.util /\
  (spec ← __spec__ Fixture.util; submodule_search_locations spec) = None /\
  open Fixture.host (Name "importlib_resources.tests.util")
    (PStr "/site/importlib_resources/tests/util.py") Fixture.fresh
  = (Raise (Exn ValueError
              (MsgIsAbsolute
                 (ReprStr "/site/importlib_resources/tests/util.py"))),
     Fixture.fresh) /\
  forall m,
    fst (open Fixture.host (Name "importlib_resources.tests.util")
           (PStr "/site/importlib_resources/tests/util.py") Fixture.fresh)
    <> Raise (Exn TypeError m).
Proof. repeat split; try reflexivity. intros m. discriminate. Qed.

(** ** The theorems at work on the packages of the tests *)

(** Each theorem above that has a premise, applied to a call on the
    packages of the tests. *)

Lemma open_validates_path_before_resolving_witness :
  exists e,
    open Fixture.host (Name "importlib_resources.tests.util")
      (PStr "../data/utf-8.file") Fixture.fresh = (Raise e, Fixture.fresh) /\
    exn_class_of e = ValueError /\
    _normalize_path (PStr "../data/utf-8.file") Fixture.fresh
    = (Raise e, Fixture.fresh).
Proof.
  apply (open_validates_path_before_resolving Fixture.host
           (Name "importlib_resources.tests.util")
           (PStr "../data/utf-8.file") Fixture.fresh).
  right. reflexivity.
Defined.

Lemma open_returns_new_stream_of_loaded_bytes_witness :
  open Fixture.host (Name "importlib_resources.tests.data")
    (PStr "utf-8.file") Fixture.fresh = (Ok 0, Fixture.opened) /\
  exists package spec l f location data,
    fst (_get_package Fixture.host (Name "importlib_resources.tests.data")
           Fixture.fresh) = Ok package /\
    __spec__ package = Some spec /\ loader spec = Some l /\
    get_data l = Some f /\ f location = Ok data /\
    last (trace Fixture.opened) = Some (EvGetData location (Ok data)) /\
    heap Fixture.fresh !! 0 = None /\
    heap Fixture.opened
    = (heap Fixture.fresh ++ [{| buffer := data; pos := 0 |}])%list /\
    exists b, heap Fixture.opened !! 0 = Some b /\
      BytesIO_tell b = 0 /\ fst (BytesIO_read b) = data /\
      fst (BytesIO_read (BytesIO_seek (snd (BytesIO_read b)) 0)) = data.
Proof.
  split; [reflexivity|].
  apply (open_returns_new_stream_of_loaded_bytes Fixture.host
           (Name "importlib_resources.tests.data") (PStr "utf-8.file")
           Fixture.fresh 0 Fixture.opened).
  reflexivity.
Defined.

Lemma open_absolute_path_ValueError_witness :
  posixpath.isabs
    (fspath (PLike "/site/importlib_resources/tests/data/utf-8.file"))
  = true /\
  open Fixture.host (Name "importlib_resources.tests.data")
    (PLike "/site/importlib_resources/tests/data/utf-8.file") Fixture.fresh
  = (Raise (Exn ValueError
              (MsgIsAbsolute
                 (ReprPathLike
                    "/site/importlib_resources/tests/data/utf-8.file"))),
     Fixture.fresh).
Proof.
  split; [reflexivity|].
  apply (open_absolute_path_ValueError Fixture.host
           (Name "importlib_resources.tests.data")
           (PLike "/site/importlib_resources/tests/data/utf-8.file")
           Fixture.fresh).
  reflexivity.
Defined.

Lemma open_parent_traversal_ValueError_witness :
  head (Str.split "/" (posixpath.normpath "../sibling/file")) = Some ".." /\
  open Fixture.host (Name "importlib_resources.tests.data")
    (PStr "../sibling/file") Fixture.fresh
  = (Raise (Exn ValueError (MsgTraverse (ReprStr "../sibling/file"))),
     Fixture.fresh).
Proof.
  split; [reflexivity|].
  apply (open_parent_traversal_ValueError Fixture.host
           (Name "importlib_resources.tests.data")
           (PStr "../sibling/file") Fixture.fresh).
  reflexivity.
Defined.

Lemma open_module_TypeError_witness :
  open Fixture.host (Name "importlib_resources.tests.util")
    (PStr "utf-8.file") Fixture.fresh
  = (Raise (Exn TypeError
              (MsgNotAPackage (ReprStr "importlib_resources.tests.util"))),
     snd (import_module Fixture.host
            (Name "importlib_resources.tests.util") Fixture.fresh)) /\
  events_since Fixture.fresh
    (snd (import_module Fixture.host
            (Name "importlib_resources.tests.util") Fixture.fresh))
  = [EvImport "importlib_resources.tests.util"].
Proof.
  apply (open_module_TypeError Fixture.host "importlib_resources.tests.util"
           (PStr "utf-8.file") Fixture.fresh Fixture.util
           (snd (import_module Fixture.host
                   (Name "importlib_resources.tests.util") Fixture.fresh))
           {| name := "importlib_resources.tests.util";
              loader := Some Fixture.source_loader;
              origin := Some "/site/importlib_resources/tests/util.py";
              submodule_search_locations := None |});
    reflexivity.
Defined.

Lemma open_get_data_location_witness :
  exists s package spec o normalized_path data,
    Name "importlib_resources.tests.data" = Name s /\
    fst (_get_package Fixture.host (Name "importlib_resources.tests.data")
           Fixture.fresh) = Ok package /\
    __spec__ package = Some spec /\ origin spec = Some o /\
    fst (_normalize_path (PStr "./sub/../utf-8.file") Fixture.fresh)
    = Ok normalized_path /\
    events_since Fixture.fresh Fixture.opened
    = [EvImport s;
       EvGetData
         (posixpath.join
            (posixpath.dirname (posixpath.abspath (cwd Fixture.fresh) o))
            normalized_path)
         (Ok data)].
Proof.
  apply (open_get_data_location Fixture.host
           (Name "importlib_resources.tests.data")
           (PStr "./sub/../utf-8.file") Fixture.fresh 0 Fixture.opened).
  reflexivity.
Defined.

Lemma open_propagates_get_data_failure_witness :
  let w1 := snd (_get_package Fixture.host
                   (Name "importlib_resources.tests.data") Fixture.fresh) in
  Fixture.source_get_data "/site/importlib_resources/tests/data/missing.file"
  = Raise (Exn (OtherError "FileNotFoundError")
             (MsgText "/site/importlib_resources/tests/data/missing.file")) /\
  open Fixture.host (Name "importlib_resources.tests.data")
    (PStr "missing.file") Fixture.fresh
  = (Raise (Exn (OtherError "FileNotFoundError")
              (MsgText "/site/importlib_resources/tests/data/missing.file")),
     log w1
       (EvGetData "/site/importlib_resources/tests/data/missing.file"
          (Raise (Exn (OtherError "FileNotFoundError")
                    (MsgText
                       "/site/importlib_resources/tests/data/missing.file"))))) /\
  heap w1 = heap Fixture.fresh.
Proof.
  intros w1. split; [reflexivity|].
  apply (proj1 (open_propagates_get_data_failure Fixture.host
                  (Name "importlib_resources.tests.data")
                  (PStr "missing.file") Fixture.fresh)
           "missing.file" Fixture.data w1
           {| name := "importlib_resources.tests.data";
              loader := Some Fixture.source_loader;
              origin :=
                Some "/site/importlib_resources/tests/data/__init__.py";
              submodule_search_locations :=
                Some ["/site/importlib_resources/tests/data"] |}
           "/site/importlib_resources/tests/data/__init__.py"
           Fixture.source_loader Fixture.source_get_data
           (Exn (OtherError "FileNotFoundError")
              (MsgText "/site/importlib_resources/tests/data/missing.file")));
    reflexivity.
Defined.

Lemma open_dotdot_prefix_ValueError_witness :
  Str.startswith (posixpath.normpath (fspath (PLike "..hidden/file"))) ".."
  = true /\
  open Fixture.host (Name "importlib_resources.tests.data")
    (PLike "..hidden/file") Fixture.fresh
  = (Raise (Exn ValueError (MsgTraverse (ReprPathLike "..hidden/file"))),
     Fixture.fresh).
Proof.
  split; [reflexivity|].
  apply (open_dotdot_prefix_ValueError Fixture.host
           (Name "importlib_resources.tests.data")
           (PLike "..hidden/file") Fixture.fresh).
  reflexivity.
Defined.

(** ** More about splitting and joining *)

Lemma append_cons c s t : String c s ++ t = String c (s ++ t).
Proof. reflexivity. Qed.

Lemma append_empty_l t : "" ++ t = t.
Proof. reflexivity. Qed.

Lemma startswith_empty s : Str.startswith s "" = true.
Proof. by destruct s. Qed.

Lemma startswith_app a b : Str.startswith (a ++ b) a = true.
Proof.
  induction a as [|c a IH].
  - apply startswith_empty.
  - rewrite append_cons, startswith_cons.
    by destruct (ascii_dec c c).
Qed.

(** A segment of a split holds no separator. *)
Lemma split_contains sep s :
  Forall (fun c => contains sep c = false) (Str.split sep s).
Proof.
  induction s as [|a s IH]; simpl.
  - by repeat constructor.
  - destruct (Ascii.eqb a sep) eqn:Ea.
    + by constructor.
    + destruct (Str.split sep s) as [|h t] eqn:E.
      { exfalso. by eapply split_nonempty. }
      inversion IH; subst. constructor; [|done].
      simpl. by rewrite Ea.
Qed.

Lemma split_no_sep sep x :
  contains sep x = false -> Str.split sep x = [x].
Proof.
  induction x as [|a x IH]; simpl; [done|].
  intros [Ha Hx]%orb_false_elim. rewrite Ha, (IH Hx). done.
Qed.

Lemma split_app_sep sep x rest :
  contains sep x = false ->
  Str.split sep (x ++ String sep rest) = x :: Str.split sep rest.
Proof.
  induction x as [|a x IH]; intros Hx.
  - rewrite append_empty_l. simpl. by rewrite Ascii.eqb_refl.
  - simpl in Hx. apply orb_false_elim in Hx as [Ha Hx].
    rewrite append_cons. simpl. by rewrite Ha, (IH Hx).
Qed.

Lemma join_cons2 sep x y l :
  Str.join sep (x :: y :: l) = x ++ sep ++ Str.join sep (y :: l).
Proof. reflexivity. Qed.

(** Splitting undoes joining, when no segment holds the separator. *)
Lemma split_join sep l :
  l <> [] -> Forall (fun c => contains sep c = false) l ->
  Str.split sep (Str.join (String sep "") l) = l.
Proof.
  induction l as [|x l IH]; [done|]. intros _ Hl.
  inversion Hl as [|? ? Hx Hl']; subst.
  destruct l as [|y l].
  - by apply split_no_sep.
  - rewrite join_cons2, append_cons, append_empty_l.
    rewrite (split_app_sep _ _ _ Hx). f_equal. by apply IH.
Qed.

Lemma join_not_empty sep l :
  l <> [] -> Forall (fun c => c <> "") l -> Str.join sep l <> "".
Proof.
  destruct l as [|x l]; [done|]. intros _ Hl.
  inversion Hl as [|? ? Hx _]; subst.
  destruct x as [|a x]; [done|].
  destruct l; [done|]. by rewrite join_cons2, append_cons.
Qed.

(** A joined path starts with its first segment. *)
Lemma join_startswith_head sep x l :
  Str.startswith (Str.join sep (x :: l)) x = true.
Proof.
  destruct l as [|y l].
  - unfold Str.join. simpl. unfold Str.startswith.
    induction x as [|c x IH]; [done|]. simpl.
    by destruct (ascii_dec c c).
  - rewrite join_cons2. apply startswith_app.
Qed.

(** ** The normal form of a relative path *)

Lemma proper_segment_not_empty names :
  Forall proper_segment names -> Forall (fun c => c <> "") names.
Proof. intros H. eapply Forall_impl; [done|]. by intros c [? _]. Qed.

Lemma leading_dotdots_not_empty l :
  leading_dotdots l -> Forall (fun c => c <> "") l.
Proof.
  intros (k & names & -> & Hn). apply Forall_app. split.
  - apply Forall_replicate. done.
  - by apply proper_segment_not_empty.
Qed.

(** One turn of the loop of [normpath] on a relative path keeps the parent
    steps in front. *)
Lemma normpath_step_leading_dotdots l comp :
  leading_dotdots l -> leading_dotdots (posixpath.normpath_step 0 l comp).
Proof.
  intros (k & names & -> & Hn). unfold posixpath.normpath_step.
  destruct (String.eqb_spec comp "") as [->|Hne]; [by exists k, names|].
  destruct (String.eqb_spec comp posixpath.dot) as [->|Hnd];
    [by exists k, names|].
  cbn [orb].
  destruct (String.eqb_spec comp posixpath.dotdot) as [->|Hndd].
  - cbn [negb orb Nat.eqb andb].
    induction names as [|x names _] using rev_ind.
    + rewrite app_nil_r. destruct k as [|k].
      * simpl. exists 1, []. by split.
      * rewrite bool_decide_eq_false_2 by done.
        assert (last (replicate (S k) "..") = Some "..") as ->
          by (rewrite replicate_S_end; apply last_snoc).
        rewrite bool_decide_eq_true_2 by done. simpl.
        exists (S (S k)), []. split; [|done].
        rewrite app_nil_r. by rewrite (replicate_S_end (S k)).
    + apply Forall_app in Hn as [Hn Hx]. inversion Hx as [|? ? Hpx _]; subst.
      rewrite app_assoc.
      rewrite bool_decide_eq_false_2 by (by destruct (replicate k _ ++ names)%list).
      rewrite last_snoc.
      rewrite bool_decide_eq_false_2.
      2:{ intros [= ->]. by destruct Hpx as (_ & _ & ?). }
      simpl. rewrite removelast_last. by exists k, names.
  - cbn [negb orb]. exists k, (names ++ [comp])%list. split.
    + by rewrite app_assoc.
    + apply Forall_app. split; [done|]. by repeat constructor.
Qed.

Lemma normpath_step_contains l comp :
  Forall (fun c => contains posixpath.sep c = false) l ->
  contains posixpath.sep comp = false ->
  Forall (fun c => contains posixpath.sep c = false)
    (posixpath.normpath_step 0 l comp).
Proof.
  intros Hl Hc. unfold posixpath.normpath_step.
  repeat match goal with |- context [if ?b then _ else _] => destruct b end;
    try done.
  - apply Forall_app. split; [done|]. by repeat constructor.
  - induction l as [|x l _] using rev_ind; [done|].
    rewrite removelast_last. by apply Forall_app in Hl as [? _].
Qed.

Lemma normpath_fold_relative comps acc :
  leading_dotdots acc ->
  Forall (fun c => contains posixpath.sep c = false) acc ->
  Forall (fun c => contains posixpath.sep c = false) comps ->
  leading_dotdots (fold_left (posixpath.normpath_step 0) comps acc) /\
  Forall (fun c => contains posixpath.sep c = false)
    (fold_left (posixpath.normpath_step 0) comps acc).
Proof.
  revert acc. induction comps as [|c comps IH]; intros acc Ha Hs Hc; [done|].
  inversion Hc; subst. simpl. apply IH; [| |done].
  - by apply normpath_step_leading_dotdots.
  - by apply normpath_step_contains.
Qed.

Lemma initial_slashes_relative s :
  posixpath.isabs s = false -> posixpath.initial_slashes s = 0.
Proof. unfold posixpath.isabs, posixpath.initial_slashes. by intros ->. Qed.

(** The normal form of a relative path: [.], or its segments joined. *)
Lemma normpath_relative_form s :
  posixpath.isabs s = false ->
  exists l,
    leading_dotdots l /\
    Forall (fun c => contains posixpath.sep c = false) l /\
    posixpath.normpath s
    = if bool_decide (l = []) then "." else Str.join "/" l.
Proof.
  intros Hrel. unfold posixpath.normpath.
  destruct (String.eqb_spec s "") as [->|Hs].
  { exists []. split; [by exists 0, []|]. by split. }
  rewrite (initial_slashes_relative _ Hrel). cbn [Nat.eqb].
  destruct (normpath_fold_relative (Str.split posixpath.sep s) [])
    as [Hl Hc]; [by exists 0, []|done|apply split_contains|].
  exists (fold_left (posixpath.normpath_step 0) (Str.split posixpath.sep s) []).
  do 2 (split; [done|]).
  case_bool_decide as Hnil.
  - by rewrite Hnil.
  - destruct (String.eqb_spec
                (Str.join posixpath.sep_s
                   (fold_left (posixpath.normpath_step 0)
                      (Str.split posixpath.sep s) [])) "") as [E|_]; [|done].
    exfalso. revert E. apply join_not_empty; [done|].
    by apply leading_dotdots_not_empty.
Qed.

Lemma join_head_not_sep x l :
  x <> "" -> contains posixpath.sep x = false ->
  posixpath.isabs (Str.join "/" (x :: l)) = false.
Proof.
  intros Hx Hc. destruct x as [|a x]; [done|].
  simpl in Hc. apply orb_false_elim in Hc as [Ha _].
  assert (forall t, posixpath.isabs (String a t) = false) as Hhead.
  { intros t. unfold posixpath.isabs, posixpath.sep_s.
    rewrite startswith_cons.
    destruct (ascii_dec "/" a) as [<-|]; [|done].
    by rewrite Ascii.eqb_refl in Ha. }
  destruct l as [|y l]; [apply Hhead|].
  rewrite join_cons2, append_cons. apply Hhead.
Qed.

(** Normalization keeps a relative path relative. *)
Lemma normpath_relative s :
  posixpath.isabs s = false -> posixpath.isabs (posixpath.normpath s) = false.
Proof.
  intros Hrel.
  destruct (normpath_relative_form s Hrel) as (l & Hl & Hc & ->).
  case_bool_decide as Hnil; [done|].
  destruct l as [|x l]; [done|].
  apply leading_dotdots_not_empty in Hl.
  inversion Hl; subst. inversion Hc; subst. by apply join_head_not_sep.
Qed.

(** The normal form of a path that passes validation: [.], or names
    joined, with no parent step left. *)
Lemma normpath_validated_form s :
  posixpath.isabs s = false ->
  Str.startswith (posixpath.normpath s) ".." = false ->
  exists names,
    Forall proper_segment names /\
    Forall (fun c => contains posixpath.sep c = false) names /\
    posixpath.normpath s
    = if bool_decide (names = []) then "." else Str.join "/" names.
Proof.
  intros Hrel Hdd.
  destruct (normpath_relative_form s Hrel)
    as (l & (k & names & -> & Hn) & Hc & Hform).
  destruct k as [|k].
  - exists names. by rewrite Hform.
  - exfalso. rewrite Hform in Hdd.
    rewrite bool_decide_eq_false_2 in Hdd by done.
    change (replicate (S k) ".." ++ names)%list
      with (".." :: (replicate k ".." ++ names))%list in Hdd.
    by rewrite join_startswith_head in Hdd.
Qed.

(** The loop of [normpath] keeps a run of names as it is. *)
Lemma normpath_fold_names slashes names acc :
  Forall proper_segment names ->
  fold_left (posixpath.normpath_step slashes) names acc
  = (acc ++ names)%list.
Proof.
  revert acc. induction names as [|c names IH]; intros acc Hn; simpl.
  - by rewrite app_nil_r.
  - inversion Hn as [|? ? (Hne & Hnd & Hndd) Hn']; subst.
    assert (posixpath.normpath_step slashes acc c = (acc ++ [c])%list) as ->.
    { unfold posixpath.normpath_step.
      destruct (String.eqb_spec c "") as [|_]; [done|].
      destruct (String.eqb_spec c posixpath.dot) as [|_]; [done|].
      by destruct (String.eqb_spec c posixpath.dotdot) as [|_]. }
    rewrite IH by done. by rewrite <- app_assoc.
Qed.

(** Normalizing what validation accepted changes nothing. *)
Lemma normpath_validated_idempotent s :
  posixpath.isabs s = false ->
  Str.startswith (posixpath.normpath s) ".." = false ->
  posixpath.normpath (posixpath.normpath s) = posixpath.normpath s.
Proof.
  intros Hrel Hdd.
  pose proof (normpath_relative _ Hrel) as Hrel'.
  destruct (normpath_validated_form s Hrel Hdd) as (names & Hn & Hc & Hform).
  rewrite Hform in *. case_bool_decide as Hnil; [done|].
  unfold posixpath.normpath at 1.
  destruct (String.eqb_spec (Str.join "/" names) "") as [E|_].
  { exfalso. revert E. apply join_not_empty; [done|].
    by apply proper_segment_not_empty. }
  rewrite (initial_slashes_relative _ Hrel'). cbn [Nat.eqb].
  assert (Str.split posixpath.sep (Str.join "/" names) = names) as ->
    by exact (split_join posixpath.sep names Hnil Hc).
  rewrite !normpath_fold_names by done. simpl.
  destruct (String.eqb_spec (Str.join posixpath.sep_s names) "") as [E|_];
    [|done].
  exfalso. revert E. apply join_not_empty; [done|].
  by apply proper_segment_not_empty.
Qed.

(** [join] keeps its first argument in front of a relative second one. *)
Lemma join_relative a b :
  posixpath.isabs b = false ->
  posixpath.join a b = a ++ b \/ posixpath.join a b = a ++ "/" ++ b.
Proof.
  unfold posixpath.join, posixpath.isabs. intros ->.
  destruct (_ || _); [by left|by right].
Qed.

(** ** More about [_normalize_path] and [open] *)

Section Behaviour.

Variable host :
  string -> gmap string ModuleType ->
  result ModuleType * gmap string ModuleType.

(** What a call does to the stream objects: nothing when it raises, one
    new object at the end when it returns. *)
Lemma open_heap_frame package_name path w r w' :
  open host package_name path w = (r, w') ->
  (heap w' = heap w /\ exists e, r = Raise e) \/
  (exists data, r = Ok (length (heap w)) /\
     heap w' = (heap w ++ [{| buffer := data; pos := 0 |}])%list).
Proof.
  intros H. apply open_runs in H.
  inversion H as [e|s sm e Hname|package f location w1 e Hreach Hf
                 |package f location w1 data Hreach Hf]; subst.
  - left. eauto.
  - left. eauto.
  - apply reaches_get_data_steps in Hreach as (_ & _ & Hheap & _).
    left. eauto.
  - apply reaches_get_data_steps in Hreach as (_ & _ & Hheap & _).
    right. exists data. simpl. by rewrite Hheap.
Qed.

(** The validated path is relative, and it is [.] or made of names only:
    no empty segment, no [.], no [..] anywhere. *)
Theorem _normalize_path_result_segments path w normalized_path w' :
  _normalize_path path w = (Ok normalized_path, w') ->
  w' = w /\
  posixpath.isabs normalized_path = false /\
  (normalized_path = "." \/
   Forall proper_segment (Str.split "/" normalized_path)).
Proof.
  intros H. apply _normalize_path_Ok_inv in H as (Hrel & Hdd & -> & ->).
  split; [done|]. split; [by apply normpath_relative|].
  destruct (normpath_validated_form _ Hrel Hdd) as (names & Hn & Hc & ->).
  case_bool_decide as Hnil; [by left|]. right.
  assert (Str.split "/" (Str.join "/" names) = names) as ->
    by exact (split_join posixpath.sep names Hnil Hc).
  done.
Qed.

(** Validation is idempotent: what [_normalize_path] returned passes
    [_normalize_path] again, as a [str] or as a path-like object, and comes
    back unchanged. *)
Theorem _normalize_path_idempotent path w normalized_path w' again :
  _normalize_path path w = (Ok normalized_path, w') ->
  fspath again = normalized_path ->
  _normalize_path again w' = (Ok normalized_path, w').
Proof.
  intros H Hagain. apply _normalize_path_Ok_inv in H as (Hrel & Hdd & -> & ->).
  pose proof (normpath_validated_idempotent _ Hrel Hdd) as Hidem.
  assert (posixpath.normpath (fspath again)
          = posixpath.normpath (fspath path)) as E
    by (rewrite Hagain; exact Hidem).
  rewrite <- E. apply _normalize_path_valid.
  - rewrite Hagain. by apply normpath_relative.
  - by rewrite E.
Qed.

(** Two paths with the same normal form end [open] alike: the same process
    state, and the same stream with the same bytes or an exception of the
    same class. *)
Theorem open_same_normal_form package_name p q w :
  posixpath.normpath (fspath p) = posixpath.normpath (fspath q) ->
  same_outcome (open host package_name p w) (open host package_name q w).
Proof.
  intros Hnorm.
  assert (posixpath.isabs (fspath p) = posixpath.isabs (fspath q)) as Habs.
  { destruct (posixpath.isabs (fspath p)) eqn:Hp,
             (posixpath.isabs (fspath q)) eqn:Hq; try done.
    - apply normpath_isabs in Hp. apply normpath_relative in Hq. congruence.
    - apply normpath_relative in Hp. apply normpath_isabs in Hq. congruence. }
  rewrite !open_unfold. unfold _normalize_path, raise.
  rewrite <- Habs, <- Hnorm.
  destruct (posixpath.isabs (fspath p)); [by split|].
  destruct (Str.startswith _ ".."); [by split|].
  apply same_outcome_refl.
Qed.

(** On success the location [get_data] is asked for is the package
    directory followed by the validated path, which is [.] or names only:
    the path argument cannot replace the directory or step out of it. *)
Theorem open_location_under_package_directory
    package_name path w stream w' :
  open host package_name path w = (Ok stream, w') ->
  exists package spec o normalized_path location data,
    fst (_get_package host package_name w) = Ok package /\
    __spec__ package = Some spec /\ origin spec = Some o /\
    fst (_normalize_path path w) = Ok normalized_path /\
    EvGetData location (Ok data) ∈ events_since w w' /\
    Str.startswith location
      (posixpath.dirname (posixpath.abspath (cwd w) o)) = true /\
    (location
     = posixpath.dirname (posixpath.abspath (cwd w) o) ++ normalized_path \/
     location
     = posixpath.dirname (posixpath.abspath (cwd w) o) ++ "/"
       ++ normalized_path) /\
    (normalized_path = "." \/
     Forall proper_segment (Str.split "/" normalized_path)).
Proof.
  intros H. apply open_runs in H.
  inversion H as [| | |package f location w1 data Hreach Hf]; subst.
  pose proof (reaches_get_data_steps _ _ _ _ _ _ _ _ Hreach)
    as (Hn & Hp & _).
  destruct Hreach as (s & sm & spec & o & l & -> & _ & Hrel & Hdd & _ & -> &
                      Hspec & _ & Ho & _ & _ & ->).
  exists package, spec, o, (posixpath.normpath (fspath path)),
    (posixpath.join (posixpath.dirname (posixpath.abspath (cwd w) o))
       (posixpath.normpath (fspath path))), data.
  rewrite Hn, Hp. do 4 (split; [done|]).
  pose proof (normpath_relative _ Hrel) as Hnrel.
  assert (posixpath.normpath (fspath path) = "." \/
          Forall proper_segment
            (Str.split "/" (posixpath.normpath (fspath path)))) as Hseg.
  { destruct (normpath_validated_form _ Hrel Hdd) as (names & Hnm & Hc & ->).
    case_bool_decide as Hnil; [by left|]. right.
    assert (Str.split "/" (Str.join "/" names) = names) as ->
      by exact (split_join posixpath.sep names Hnil Hc).
    done. }
  split.
  { rewrite (events_since_app w _
               [EvImport s;
                EvGetData
                  (posixpath.join
                     (posixpath.dirname (posixpath.abspath (cwd w) o))
                     (posixpath.normpath (fspath path))) (Ok data)])
      by (simpl; by rewrite <- app_assoc).
    apply elem_of_cons. right. apply elem_of_cons. by left. }
  destruct (join_relative
              (posixpath.dirname (posixpath.abspath (cwd w) o)) _ Hnrel)
    as [E|E]; rewrite E.
  - split; [apply startswith_app|]. split; [by left|done].
  - split; [apply startswith_app|]. split; [by right|done].
Qed.

(** An exception raised by the import machinery is the exception [open]
    raises, unchanged, after the import alone: the loader is not asked. *)
Theorem open_propagates_import_failure s path w e sm :
  posixpath.isabs (fspath path) = false ->
  Str.startswith (posixpath.normpath (fspath path)) ".." = false ->
  Str.startswith s "." = false ->
  host s (sys_modules w) = (Raise e, sm) ->
  open host (Name s) path w
  = (Raise e, log (set_sys_modules w sm) (EvImport s)) /\
  events_since w (log (set_sys_modules w sm) (EvImport s)) = [EvImport s].
Proof.
  intros Habs Hdd Hrel Hh. split; [|by apply events_since_log1].
  rewrite open_unfold, (_normalize_path_valid _ _ Habs Hdd).
  unfold _get_package, import_module. rewrite Hrel.
  unfold mbind, M_bind. by rewrite Hh.
Qed.

(** A call asks each collaborator at most once and in order: nothing, or
    the import alone, or the import and then one [get_data]. *)
Theorem open_calls_collaborators_once package_name path w r w' :
  open host package_name path w = (r, w') ->
  events_since w w' = [] \/
  exists s, package_name = Name s /\
    (events_since w w' = [EvImport s] \/
     exists location d,
       events_since w w' = [EvImport s; EvGetData location d]).
Proof.
  intros H. apply open_runs in H.
  inversion H as [e|s sm e Hname|package f location w1 e Hreach Hf
                 |package f location w1 data Hreach Hf]; subst.
  - left. apply events_since_refl.
  - right. exists s. split; [done|]. left. by apply events_since_log1.
  - apply reaches_get_data_steps in Hreach as (_ & _ & _ & _ & s & -> & Htr).
    right. exists s. split; [done|]. right. eexists _, _.
    apply events_since_app. simpl. rewrite Htr. by rewrite <- app_assoc.
  - apply reaches_get_data_steps in Hreach as (_ & _ & _ & _ & s & -> & Htr).
    right. exists s. split; [done|]. right. eexists _, _.
    apply events_since_app. simpl. rewrite Htr. by rewrite <- app_assoc.
Qed.

(** A stream that [open] returned is a stream of its own: a later call,
    whatever it is given and however it ends, leaves it as it is and
    returns a different stream if it returns one. *)
Theorem open_streams_independent
    package_name1 path1 w stream1 w1 package_name2 path2 r2 w2 :
  open host package_name1 path1 w = (Ok stream1, w1) ->
  open host package_name2 path2 w1 = (r2, w2) ->
  is_Some (heap w1 !! stream1) /\
  heap w2 !! stream1 = heap w1 !! stream1 /\
  forall stream2, r2 = Ok stream2 -> stream2 <> stream1.
Proof.
  intros H1 H2.
  apply open_heap_frame in H1 as [[_ [e [=]]]|(data1 & [= ->] & Hh1)].
  assert (heap w1 !! length (heap w) = Some {| buffer := data1; pos := 0 |})
    as Hs1 by (rewrite Hh1; by apply list_lookup_middle).
  split; [by rewrite Hs1|].
  apply open_heap_frame in H2 as [[-> [e ->]]|(data2 & -> & ->)].
  - split; [done|]. by intros stream2 [=].
  - split.
    + rewrite lookup_app_l; [done|]. rewrite Hh1, length_app. simpl. lia.
    + intros stream2 [= <-]. rewrite Hh1, length_app. simpl. lia.
Qed.

End Behaviour.

(** ** Packages that cannot be read *)

Section Unreadable.

Variable host :
  string -> gmap string ModuleType ->
  result ModuleType * gmap string ModuleType.

(** A package without an origin (a namespace package) passes
    [_get_package] and then makes [open] fail with the [TypeError] of
    [os.path.abspath(None)]; the loader is not asked. *)
Theorem open_package_without_origin_TypeError
    s path w package w1 spec locations :
  posixpath.isabs (fspath path) = false ->
  Str.startswith (posixpath.normpath (fspath path)) ".." = false ->
  import_module host (Name s) w = (Ok package, w1) ->
  __spec__ package = Some spec ->
  submodule_search_locations spec = Some locations ->
  origin spec = None ->
  _get_package host (Name s) w = (Ok package, w1) /\
  open host (Name s) path w
  = (Raise (Exn TypeError
              (MsgText
                 "expected str, bytes or os.PathLike object, not NoneType")),
     w1) /\
  events_since w w1 = [EvImport s].
Proof.
  intros Habs Hdd Hi Hspec Hssl Ho.
  assert (_get_package host (Name s) w = (Ok package, w1)) as Hp.
  { unfold _get_package. rewrite (bind_Ok _ _ _ _ _ Hi).
    unfold attr__spec__. rewrite Hspec.
    unfold mbind, M_bind, mret, M_ret. by rewrite Hssl. }
  split; [done|]. split.
  - rewrite open_unfold, (_normalize_path_valid _ _ Habs Hdd), Hp.
    unfold attr__spec__. rewrite Hspec. unfold mret, M_ret.
    by rewrite Ho.
  - apply import_module_inv in Hi
      as [[_ [e [=]]]|(s' & sm & [= <-] & _ & _ & ->)].
    by apply events_since_log1.
Qed.

(** A package whose spec has no loader, or a loader without [get_data],
    makes [open] fail with [AttributeError] after the import; no stream is
    created. *)
Theorem open_loader_without_get_data_AttributeError
    s path w package w1 spec locations o :
  posixpath.isabs (fspath path) = false ->
  Str.startswith (posixpath.normpath (fspath path)) ".." = false ->
  import_module host (Name s) w = (Ok package, w1) ->
  __spec__ package = Some spec ->
  submodule_search_locations spec = Some locations ->
  origin spec = Some o ->
  loader spec = None \/ (exists l, loader spec = Some l /\ get_data l = None) ->
  exists e,
    open host (Name s) path w = (Raise e, w1) /\
    exn_class_of e = AttributeError /\
    events_since w w1 = [EvImport s] /\ heap w1 = heap w.
Proof.
  intros Habs Hdd Hi Hspec Hssl Ho Hl.
  assert (_get_package host (Name s) w = (Ok package, w1)) as Hp.
  { unfold _get_package. rewrite (bind_Ok _ _ _ _ _ Hi).
    unfold attr__spec__. rewrite Hspec.
    unfold mbind, M_bind, mret, M_ret. by rewrite Hssl. }
  assert (events_since w w1 = [EvImport s] /\ heap w1 = heap w) as [Hev Hheap].
  { apply import_module_inv in Hi
      as [[_ [e [=]]]|(s' & sm & [= <-] & _ & _ & ->)].
    split; [by apply events_since_log1|done]. }
  rewrite open_unfold, (_normalize_path_valid _ _ Habs Hdd), Hp.
  unfold attr__spec__. rewrite Hspec. unfold mret, M_ret.
  rewrite Ho. unfold os_path_abspath, loader_get_data, raise.
  destruct Hl as [->|(l & -> & ->)]; eexists; by repeat split.
Qed.

End Unreadable.

(** ** These theorems at work *)


Lemma _normalize_path_result_segments_witness :
  _normalize_path (PStr "a/./b/../utf-8.file") Fixture.fresh
  = (Ok "a/utf-8.file", Fixture.fresh) /\
  posixpath.isabs "a/utf-8.file" = false /\
  ("a/utf-8.file" = "." \/
   Forall proper_segment (Str.split "/" "a/utf-8.file")).
Proof.
  split; [reflexivity|].
  apply (_normalize_path_result_segments (PStr "a/./b/../utf-8.file")
           Fixture.fresh "a/utf-8.file" Fixture.fresh eq_refl).
Defined.

Lemma _normalize_path_idempotent_witness :
  _normalize_path (PStr "./sub/../utf-8.file") Fixture.fresh
  = (Ok "utf-8.file", Fixture.fresh) /\
  _normalize_path (PLike "utf-8.file") Fixture.fresh
  = (Ok "utf-8.file", Fixture.fresh).
Proof.
  split; [reflexivity|].
  apply (_normalize_path_idempotent (PStr "./sub/../utf-8.file")
           Fixture.fresh "utf-8.file" Fixture.fresh (PLike "utf-8.file"));
    reflexivity.
Defined.

Lemma open_same_normal_form_witness :
  same_outcome
    (open Fixture.host (Name "importlib_resources.tests.data")
       (PStr "utf-8.file") Fixture.fresh)
    (open Fixture.host (Name "importlib_resources.tests.data")
       (PLike "./sub/../utf-8.file") Fixture.fresh).
Proof.
  apply (open_same_normal_form Fixture.host
           (Name "importlib_resources.tests.data")
           (PStr "utf-8.file") (PLike "./sub/../utf-8.file") Fixture.fresh).
  reflexivity.
Defined.

Lemma open_location_under_package_directory_witness :
  exists package spec o normalized_path location data,
    fst (_get_package Fixture.host (Name "importlib_resources.tests.data")
           Fixture.fresh) = Ok package /\
    __spec__ package = Some spec /\ origin spec = Some o /\
    fst (_normalize_path (PStr "utf-8.file") Fixture.fresh)
    = Ok normalized_path /\
    EvGetData location (Ok data) ∈ events_since Fixture.fresh Fixture.opened /\
    Str.startswith location
      (posixpath.dirname (posixpath.abspath (cwd Fixture.fresh) o)) = true /\
    (location
     = posixpath.dirname (posixpath.abspath (cwd Fixture.fresh) o)
       ++ normalized_path \/
     location
     = posixpath.dirname (posixpath.abspath (cwd Fixture.fresh) o) ++ "/"
       ++ normalized_path) /\
    (normalized_path = "." \/
     Forall proper_segment (Str.split "/" normalized_path)).
Proof.
  apply (open_location_under_package_directory Fixture.host
           (Name "importlib_resources.tests.data") (PStr "utf-8.file")
           Fixture.fresh 0 Fixture.opened).
  reflexivity.
Defined.

Lemma open_propagates_import_failure_witness :
  open Fixture.host (Name "no.such.module") (PStr "utf-8.file") Fixture.fresh
  = (Raise (Exn (OtherError "ModuleNotFoundError")
              (MsgText "No module named")),
     log (set_sys_modules Fixture.fresh ∅) (EvImport "no.such.module")) /\
  events_since Fixture.fresh
    (log (set_sys_modules Fixture.fresh ∅) (EvImport "no.such.module"))
  = [EvImport "no.such.module"].
Proof.
  apply (open_propagates_import_failure Fixture.host "no.such.module"
           (PStr "utf-8.file") Fixture.fresh); reflexivity.
Defined.

Lemma open_calls_collaborators_once_witness :
  events_since Fixture.fresh Fixture.opened = [] \/
  exists s, Name "importlib_resources.tests.data" = Name s /\
    (events_since Fixture.fresh Fixture.opened = [EvImport s] \/
     exists location d,
       events_since Fixture.fresh Fixture.opened
       = [EvImport s; EvGetData location d]).
Proof.
  apply (open_calls_collaborators_once Fixture.host
           (Name "importlib_resources.tests.data") (PStr "utf-8.file")
           Fixture.fresh (Ok 0) Fixture.opened).
  reflexivity.
Defined.

Lemma open_streams_independent_witness :
  let second := open Fixture.host (Name "importlib_resources.tests.data")
                  (PStr "utf-8.file") Fixture.opened in
  fst second = Ok 1 /\
  is_Some (heap Fixture.opened !! 0) /\
  heap (snd second) !! 0 = heap Fixture.opened !! 0 /\
  forall stream2, fst second = Ok stream2 -> stream2 <> 0.
Proof.
  intros second. split; [reflexivity|].
  apply (open_streams_independent Fixture.host
           (Name "importlib_resources.tests.data") (PStr "utf-8.file")
           Fixture.fresh 0 Fixture.opened
           (Name "importlib_resources.tests.data") (PStr "utf-8.file")
           (fst second) (snd second)); reflexivity.
Defined.

Lemma open_package_without_origin_TypeError_witness :
  let w1 := snd (import_module Edge.host (Name "ns") Fixture.fresh) in
  _get_package Edge.host (Name "ns") Fixture.fresh
  = (Ok Edge.namespace_package, w1) /\
  open Edge.host (Name "ns") (PStr "utf-8.file") Fixture.fresh
  = (Raise (Exn TypeError
              (MsgText
                 "expected str, bytes or os.PathLike object, not NoneType")),
     w1) /\
  events_since Fixture.fresh w1 = [EvImport "ns"].
Proof.
  intros w1.
  apply (open_package_without_origin_TypeError Edge.host "ns"
           (PStr "utf-8.file") Fixture.fresh Edge.namespace_package w1
           {| name := "ns"; loader := None; origin := None;
              submodule_search_locations := Some ["/site/ns"] |}
           ["/site/ns"]); reflexivity.
Defined.

Lemma open_loader_without_get_data_AttributeError_witness :
  let w1 := snd (import_module Edge.host (Name "bare") Fixture.fresh) in
  exists e,
    open Edge.host (Name "bare") (PStr "utf-8.file") Fixture.fresh
    = (Raise e, w1) /\
    exn_class_of e = AttributeError /\
    events_since Fixture.fresh w1 = [EvImport "bare"] /\
    heap w1 = heap Fixture.fresh.
Proof.
  intros w1.
  apply (open_loader_without_get_data_AttributeError Edge.host "bare"
           (PStr "utf-8.file") Fixture.fresh Edge.bare_package w1
           {| name := "bare"; loader := Some {| get_data := None |};
              origin := Some "/site/bare/__init__.py";
              submodule_search_locations := Some ["/site/bare"] |}
           ["/site/bare"] "/site/bare/__init__.py"); try reflexivity.
  right. by exists {| get_data := None |}.
Defined.
